(** * seqr UI: state selectors and the list field editor

    A shallow embedding of two pieces of the seqr front end:

    - the selectors [getProjectsIsLoading] ... [getUser], each an arrow
      function [state => state.x] or [state => state.xLoading.isLoading];
    - the function component [ListFieldView] of
      [ui/shared/components/panel/view-fields/ListFieldView.jsx], and the
      row component [RemovableInput] of the same file;
    - the stroke and label callbacks of the RNA-seq outlier plot.

    JavaScript objects and arrays live in a store and are named by
    references, so that "the same object" and "left unchanged" can be said.
    A computation threads the store and either returns a value or throws. *)

From stdpp Require Import base option list strings pretty gmap fin_maps.

(** ** Values and the object store *)

Definition loc := positive.

(** Primitive values, opaque function values (only their own [length] and
    [name] are readable), references to objects or arrays, and the
    built-in object [Object.prototype], which every plain object inherits
    from and which is not kept in the store. Numbers are the
    integer-valued ones, which is what [length] yields. *)
Inductive value :=
  | VUndefined
  | VNull
  | VBool (b : bool)
  | VNum (n : Z)
  | VStr (s : string)
  | VFun (name : string) (arity : nat)
  | VRef (l : loc)
  | VProto.

#[global] Instance value_eq_dec : EqDecision value.
Proof. solve_decision. Defined.

(** A stored object is a plain object, given by its own properties, or an
    array, given by its elements. A plain object inherits from
    [Object.prototype]; what arrays, strings, numbers, booleans and
    functions inherit from their prototypes is outside the model. *)
Inductive obj :=
  | Obj (props : gmap string value)
  | Arr (elems : list value).

Inductive error := TypeError.

Inductive result (A : Type) :=
  | Ok (a : A)
  | Throw (e : error).
Arguments Ok {A} a.
Arguments Throw {A} e.

(** ** Computations over the store *)

Definition M (A : Type) : Type := gmap loc obj → result A * gmap loc obj.

Definition ret {A} (a : A) : M A := λ h, (Ok a, h).

Definition bind {A B} (c : M A) (k : A → M B) : M B :=
  λ h, match c h with
       | (Ok a, h') => k a h'
       | (Throw e, h') => (Throw e, h')
       end.

Notation "'let!' x ':=' c 'in' k" := (bind c (λ x, k))
  (at level 10, x name, c at level 100, k at level 200).

(** [new] object or array literal: stored under a name not yet in use. *)
Definition alloc (o : obj) : M value :=
  λ h, let l := fresh (dom h) in (Ok (VRef l), <[l := o]> h).

(** The own enumerable properties of a value, as [{...v}] copies them:
    all the properties of a plain object, the index properties of an array
    or of a string, nothing for the other values. *)
Definition indexed {A} (f : A → value) (xs : list A) : gmap string value :=
  list_to_map (imap (λ i x, (pretty i, f x)) xs).

Definition own_enumerable (h : gmap loc obj) (v : value) : gmap string value :=
  match v with
  | VRef l =>
      match h !! l with
      | Some (Obj m) => m
      | Some (Arr xs) => indexed id xs
      | None => ∅
      end
  | VStr s => indexed (λ c, VStr (String c EmptyString)) (String.list_ascii_of_string s)
  | _ => ∅
  end.

(** The own properties of [Object.prototype] that hold a function, each
    with its [length]: the standard methods and the legacy accessors
    helpers. Its one other property, the accessor [__proto__], is treated
    in [inherited] and [read]. *)
Definition Object_prototype : gmap string value :=
  list_to_map
    [ ("constructor", VFun "Object" 1);
      ("hasOwnProperty", VFun "hasOwnProperty" 1);
      ("isPrototypeOf", VFun "isPrototypeOf" 1);
      ("propertyIsEnumerable", VFun "propertyIsEnumerable" 1);
      ("toLocaleString", VFun "toLocaleString" 0);
      ("toString", VFun "toString" 0);
      ("valueOf", VFun "valueOf" 0);
      ("__defineGetter__", VFun "__defineGetter__" 2);
      ("__defineSetter__", VFun "__defineSetter__" 2);
      ("__lookupGetter__", VFun "__lookupGetter__" 1);
      ("__lookupSetter__", VFun "__lookupSetter__" 1) ].

(** What a plain object yields for a key it has no own property for: the
    prototype itself for [__proto__], a method of the prototype, or
    [undefined]. *)
Definition inherited (k : string) : value :=
  if String.eqb k "__proto__" then VProto
  else default VUndefined (Object_prototype !! k).

(** [v[k]] and [v.k]: reading a property of [undefined] or [null] throws a
    TypeError; a property that is found neither on a plain object nor on
    [Object.prototype] reads as [undefined]. Arrays and strings have
    [length] on top of their index properties (the length of a string is
    counted in characters of the model, which is the JavaScript length for
    ASCII text). The prototype of [Object.prototype] is [null]. A
    reference that names nothing in the store cannot arise in a program;
    every property of it reads as [undefined]. *)
Definition read (h : gmap loc obj) (v : value) (k : string) : result value :=
  match v with
  | VUndefined | VNull => Throw TypeError
  | VBool _ | VNum _ => Ok VUndefined
  | VStr s =>
      if String.eqb k "length" then Ok (VNum (Z.of_nat (String.length s)))
      else Ok (default VUndefined (own_enumerable h v !! k))
  | VFun name arity =>
      if String.eqb k "length" then Ok (VNum (Z.of_nat arity))
      else if String.eqb k "name" then Ok (VStr name)
      else Ok VUndefined
  | VRef l =>
      match h !! l with
      | Some (Arr xs) =>
          if String.eqb k "length" then Ok (VNum (Z.of_nat (length xs)))
          else Ok (default VUndefined (own_enumerable h v !! k))
      | Some (Obj m) => Ok (default (inherited k) (m !! k))
      | None => Ok VUndefined
      end
  | VProto =>
      if String.eqb k "__proto__" then Ok VNull
      else Ok (default VUndefined (Object_prototype !! k))
  end.

Definition get_prop (v : value) (k : string) : M value :=
  λ h, (read h v k, h).

(** ToBoolean. *)
Definition truthy (v : value) : bool :=
  match v with
  | VUndefined | VNull => false
  | VBool b => b
  | VNum n => negb (n =? 0)%Z
  | VStr s => negb (String.eqb s "")
  | VFun _ _ | VRef _ | VProto => true
  end.

(** [a && b]: [b] is evaluated only when [a] is truthy. *)
Definition js_and (a : value) (b : M value) : M value :=
  if truthy a then b else ret a.

(** The elements of the array a value refers to, if it refers to one. *)
Definition elements_of (h : gmap loc obj) (v : value) : option (list value) :=
  match v with
  | VRef l => match h !! l with Some (Arr xs) => Some xs | _ => None end
  | _ => None
  end.

(** The own properties of the plain object a value refers to. *)
Definition object_of (h : gmap loc obj) (v : value) : option (gmap string value) :=
  match v with
  | VRef l => match h !! l with Some (Obj m) => Some m | _ => None end
  | _ => None
  end.

(** ** The selectors *)

Module Selectors.

Definition getProjectsIsLoading (state : value) : M value :=
  let! r := get_prop state "projectsLoading" in get_prop r "isLoading".
Definition getProjectsByGuid (state : value) : M value :=
  get_prop state "projectsByGuid".
Definition getProjectCategoriesByGuid (state : value) : M value :=
  get_prop state "projectCategoriesByGuid".
Definition getFamiliesByGuid (state : value) : M value :=
  get_prop state "familiesByGuid".
Definition getIndividualsByGuid (state : value) : M value :=
  get_prop state "individualsByGuid".
Definition getSamplesByGuid (state : value) : M value :=
  get_prop state "samplesByGuid".
Definition getMatchmakerSubmissions (state : value) : M value :=
  get_prop state "matchmakerSubmissions".
Definition getMatchmakerMatches (state : value) : M value :=
  get_prop state "matchmakerMatches".
Definition getMatchmakerMatchesLoading (state : value) : M value :=
  let! r := get_prop state "matchmakerMatchesLoading" in get_prop r "isLoading".
Definition getGenesById (state : value) : M value :=
  get_prop state "genesById".
Definition getGenesIsLoading (state : value) : M value :=
  let! r := get_prop state "genesLoading" in get_prop r "isLoading".
Definition getLocusListsByGuid (state : value) : M value :=
  get_prop state "locusListsByGuid".
Definition getLocusListsIsLoading (state : value) : M value :=
  let! r := get_prop state "locusListsLoading" in get_prop r "isLoading".
Definition getLocusListIsLoading (state : value) : M value :=
  let! r := get_prop state "locusListLoading" in get_prop r "isLoading".
Definition getVariantIsLoading (state : value) : M value :=
  let! r := get_prop state "variantLoading" in get_prop r "isLoading".
Definition getUser (state : value) : M value :=
  get_prop state "user".

(** The exported selectors, each with the top-level field of the state it
    reads: first the ten that return the field itself, then the six that
    return the [isLoading] flag of the record stored in the field. *)
Definition slice_selectors : list (string * (value → M value)) :=
  [ ("projectsByGuid", getProjectsByGuid);
    ("projectCategoriesByGuid", getProjectCategoriesByGuid);
    ("familiesByGuid", getFamiliesByGuid);
    ("individualsByGuid", getIndividualsByGuid);
    ("samplesByGuid", getSamplesByGuid);
    ("matchmakerSubmissions", getMatchmakerSubmissions);
    ("matchmakerMatches", getMatchmakerMatches);
    ("genesById", getGenesById);
    ("locusListsByGuid", getLocusListsByGuid);
    ("user", getUser) ].

Definition loading_selectors : list (string * (value → M value)) :=
  [ ("projectsLoading", getProjectsIsLoading);
    ("matchmakerMatchesLoading", getMatchmakerMatchesLoading);
    ("genesLoading", getGenesIsLoading);
    ("locusListsLoading", getLocusListsIsLoading);
    ("locusListLoading", getLocusListIsLoading);
    ("variantLoading", getVariantIsLoading) ].

Definition selectors : list (string * (value → M value)) :=
  slice_selectors ++ loading_selectors.

End Selectors.

(** ** The list field editor *)

Module ListField.

(** The props the component is called with, as its [propTypes] type them:
    [field] is a required string, [initialValues] and [addElementLabel] are
    whatever the caller passed ([undefined] when not supplied), and
    [passThrough] holds every other prop. *)
Record Props := {
  field : string;
  initialValues : value;
  addElementLabel : value;
  passThrough : gmap string value;
}.

(** [({ addElementLabel, initialValues, ...props })]: the rest object has
    every prop but the two taken out by name, so it has [field]. *)
Definition restProps (p : Props) : gmap string value :=
  <["field" := VStr (field p)]>
    (delete "addElementLabel" (delete "initialValues" (passThrough p))).

(** [validators.required] and [BaseFieldView] are imported from other
    modules of the application, and [RemovableInput] is the row component
    defined above [ListFieldView]. The editor only passes them on, so they
    are opaque function values here and their arity plays no part. *)
Definition validators_required : value := VFun "required" 1.
Definition BaseFieldView : value := VFun "BaseFieldView" 1.
Definition RemovableInput : value := VFun "RemovableInput" 1.

(** The names [React.createElement] keeps out of an element's props. *)
Definition reserved_props : list string := ["key"; "ref"; "__self"; "__source"].

(** [<T k1={v1} ... />] is [React.createElement(T, config)]: a new element
    object holding the component and a new props object with the
    configuration minus the reserved names. The element's own [key] and
    [ref] are left out, and so are the default props of the component,
    which replace props that are [undefined]: the components used here are
    imported and their default props are not known. A prop named
    [__proto__] is outside the model. *)
Definition createElement (type : value) (config : gmap string value) : M value :=
  let! props := alloc (Obj (foldr delete config reserved_props)) in
  alloc (Obj (<["type" := type]> (<["props" := props]> ∅))).

(** Lines 17-23: the one-element array of field descriptors. *)
Definition formFields (p : Props) : M value :=
  let! addArrayElement := alloc (Obj (<["label" := addElementLabel p]> ∅)) in
  let! descriptor :=
    alloc (Obj (<["name" := VStr (field p)]>
               (<["isArrayField" := VBool true]>
               (<["addArrayElement" := addArrayElement]>
               (<["validate" := validators_required]>
               (<["component" := RemovableInput]> ∅)))))) in
  alloc (Arr [descriptor]).

(** Line 27: [(initialValue && initialValue.length) ? initialValue : ['']]. *)
Definition defaulted (initialValue : value) : M value :=
  let! c := js_and initialValue (get_prop initialValue "length") in
  if truthy c then ret initialValue else alloc (Arr [VStr ""]).

(** Lines 24-28. The object literal is stored once it is complete: the
    spread copies the own properties of [initialValues], then the computed
    key [[props.field]] overrides or adds the named field. *)
Definition defaultedInitialValues (p : Props) : M value :=
  let! initialValue := get_prop (initialValues p) (field p) in
  let! v := defaulted initialValue in
  λ h, alloc (Obj (<[field p := v]> (own_enumerable h (initialValues p)))) h.

(** The component: its result is the element it returns. In the JSX the
    rest props are spread last, so they override [formFields] (and would
    override [initialValues], which they cannot contain). *)
Definition ListFieldView (p : Props) : M value :=
  let! fields := formFields p in
  let! defaultedValues := defaultedInitialValues p in
  createElement BaseFieldView
    (restProps p ∪ <["formFields" := fields]>
                   (<["initialValues" := defaultedValues]> ∅)).

(** The same props with another [initialValues]. *)
Definition with_initialValues (p : Props) (iv : value) : Props :=
  {| field := field p; initialValues := iv;
     addElementLabel := addElementLabel p; passThrough := passThrough p |}.

(** *** Reading the returned element *)

Definition result_bind {A B} (r : result A) (k : A → result B) : result B :=
  match r with Ok a => k a | Throw e => Throw e end.

(** [element.props.initialValues], the mapping handed to [BaseFieldView]. *)
Definition renderedInitialValues (h : gmap loc obj) (element : value) : result value :=
  result_bind (read h element "props") (λ props, read h props "initialValues").

(** [element.props.initialValues[field]], the normalized value of the
    named field. *)
Definition normalizedValue (p : Props) (h : gmap loc obj) (element : value) : result value :=
  result_bind (renderedInitialValues h element) (λ m, read h m (field p)).


End ListField.

(** ** Concrete stores used in the examples below *)

Module Fixtures.
Import Selectors ListField.

(** A state with every field the selectors read. The slices are plain
    objects of their own and each loading field holds a record with an
    [isLoading] flag. The state object is at location 1. *)
Definition state_fields : gmap string value :=
  list_to_map
    [ ("projectsByGuid", VRef 2); ("projectCategoriesByGuid", VRef 3);
      ("familiesByGuid", VRef 4); ("individualsByGuid", VRef 5);
      ("samplesByGuid", VRef 6); ("matchmakerSubmissions", VRef 7);
      ("matchmakerMatches", VRef 8); ("genesById", VRef 9);
      ("locusListsByGuid", VRef 10); ("user", VRef 11);
      ("projectsLoading", VRef 12); ("matchmakerMatchesLoading", VRef 13);
      ("genesLoading", VRef 14); ("locusListsLoading", VRef 15);
      ("locusListLoading", VRef 16); ("variantLoading", VRef 17) ]%positive.

Definition loading_record (b : bool) : obj := Obj (<["isLoading" := VBool b]> ∅).

Definition state_store : gmap loc obj :=
  list_to_map
    [ (1, Obj state_fields);
      (2, Obj ∅); (3, Obj ∅); (4, Obj ∅); (5, Obj ∅); (6, Obj ∅);
      (7, Obj ∅); (8, Obj ∅); (9, Obj ∅); (10, Obj ∅);
      (11, Obj (<["username" := VStr "test_user"]> ∅));
      (12, loading_record true); (13, loading_record false);
      (14, loading_record false); (15, loading_record false);
      (16, loading_record false); (17, loading_record false) ]%positive.

(** The empty state [{}], and a state whose loading field holds a record
    without the flag. *)
Definition empty_state_store : gmap loc obj := <[1%positive := Obj ∅]> ∅.

Definition flagless_store : gmap loc obj :=
  <[1%positive := Obj (<["genesLoading" := VRef 2%positive]> ∅)]>
    (<[2%positive := Obj ∅]> ∅).

(** Props for the editor of the field [aliases]. *)
Definition props_with (iv : value) : Props :=
  {| field := "aliases"; initialValues := iv;
     addElementLabel := VStr "Add Alias"; passThrough := ∅ |}.

(** [initialValues = {}] at location 1. *)
Definition absent_store : gmap loc obj := <[1%positive := Obj ∅]> ∅.

(** [initialValues = { aliases: [] }]. *)
Definition empty_list_store : gmap loc obj :=
  <[1%positive := Obj (<["aliases" := VRef 2%positive]> ∅)]>
    (<[2%positive := Arr []]> ∅).

(** [initialValues = { aliases: ['a', 'b'], note: 'n' }]. *)
Definition two_names_store : gmap loc obj :=
  <[1%positive := Obj (<["aliases" := VRef 2%positive]> (<["note" := VStr "n"]> ∅))]>
    (<[2%positive := Arr [VStr "a"; VStr "b"]]> ∅).

End Fixtures.

(** A state is well formed in a store when it is a plain object that has
    every field the selectors read, and each loading field holds a record
    (a plain object). *)
Definition well_formed_state (h : gmap loc obj) (s : value) : Prop :=
  ∃ m, object_of h s = Some m ∧
    Forall (λ fs : string * (value → M value), is_Some (m !! fs.1))
           Selectors.slice_selectors ∧
    Forall (λ fs : string * (value → M value),
              ∃ r, m !! fs.1 = Some r ∧ is_Some (object_of h r))
           Selectors.loading_selectors.

(** [initialValue && initialValue.length] is truthy in store [h]. *)
Definition kept (h : gmap loc obj) (v : value) : bool :=
  truthy v && match read h v "length" with Ok c => truthy c | Throw _ => false end.

(** C1 as the specification words it, for all sixteen selectors. *)
Definition missing_field_reads_undefined : Prop :=
  ∀ fld sel, (fld, sel) ∈ Selectors.selectors →
  ∀ h l m, h !! l = Some (Obj m) → m !! fld = None →
           sel (VRef l) h = (Ok VUndefined, h).

(** C2 as the specification words it: every selector returns the value of
    its top-level field. *)
Definition selector_returns_top_level_field : Prop :=
  ∀ fld sel, (fld, sel) ∈ Selectors.selectors →
  ∀ h s, well_formed_state h s → sel s h = (read h s fld, h).

(** ** The removable row input *)

Module Row.

(** [BaseSemanticInput] and [Icon] are imported components; the row only
    builds elements for them. *)
Definition BaseSemanticInput : value := VFun "BaseSemanticInput" 1.
Definition Icon : value := VFun "Icon" 1.

(** Lines 9-10 of [ListFieldView.jsx]. The component is called with the
    own properties of its props object. [removeField] is taken out by name
    ([undefined] when not passed) and becomes the click handler of the
    remove icon; the rest is spread last into the input's props. A JSX
    attribute without a value, as [link], is [true]. *)
Definition RemovableInput (allProps : gmap string value) : M value :=
  let removeField := default VUndefined (allProps !! "removeField") in
  let props := delete "removeField" allProps in
  let! icon :=
    ListField.createElement Icon
      (<["name" := VStr "remove"]>
      (<["link" := VBool true]>
      (<["onClick" := removeField]> ∅))) in
  ListField.createElement BaseSemanticInput
    (props ∪ <["icon" := icon]> (<["inputType" := VStr "Input"]> ∅)).

End Row.

(** [element.props[k]] for an element built by [createElement]. *)
Definition elementProp (h : gmap loc obj) (element : value) (k : string) : result value :=
  ListField.result_bind (read h element "props") (λ props, read h props k).

(** [null] or [undefined]. *)
Definition nullish (v : value) : bool :=
  match v with VUndefined | VNull => true | _ => false end.

(** ** The point callbacks of the outlier plot *)

Module Outliers.

(** What the callbacks of [initPlot] read of a data row [d], which is an
    object ([data] is an array of objects by its [propTypes]): the value
    of [d.isSignificant] ([undefined] when the row has none) and the
    property key that [d.geneId] stands for in [genesById[d.geneId]]. *)
Record Datum := {
  isSignificant : value;
  geneId : string;
}.

(** [a || b]: [b] is evaluated only when [a] is falsy. *)
Definition js_or (a : value) (b : M value) : M value :=
  if truthy a then ret a else b.

(** Line 81: [d => (d.isSignificant ? 'red' : 'lightgrey')]. *)
Definition stroke (d : Datum) : value :=
  if truthy (isSignificant d) then VStr "red" else VStr "lightgrey".

(** Line 84:
    [d => (d.isSignificant ? (genesById[d.geneId] || {}).geneSymbol : null)],
    with [genesById] the prop of the graph. *)
Definition geneLabel (genesById : value) (d : Datum) : M value :=
  if truthy (isSignificant d) then
    let! gene := get_prop genesById (geneId d) in
    let! record := js_or gene (alloc (Obj ∅)) in
    get_prop record "geneSymbol"
  else ret VNull.

End Outliers.

(** ** Further stores for the examples *)

Module MoreFixtures.

(** [initialValues = { aliases: 'abc', count: 3 }] at location 1. *)
Definition scalar_store : gmap loc obj :=
  <[1%positive := Obj (<["aliases" := VStr "abc"]> (<["count" := VNum 3]> ∅))]> ∅.

(** Props for the field [count] of that mapping. *)
Definition count_props : ListField.Props :=
  {| ListField.field := "count"; ListField.initialValues := VRef 1%positive;
     ListField.addElementLabel := VUndefined; ListField.passThrough := ∅ |}.

(** Props that also pass [formFields] and [isEditable] through. *)
Definition overriding_props : ListField.Props :=
  {| ListField.field := "aliases"; ListField.initialValues := VRef 1%positive;
     ListField.addElementLabel := VStr "Add Alias";
     ListField.passThrough :=
       <["formFields" := VStr "mine"]> (<["isEditable" := VBool true]> ∅) |}.

(** Props of a row: a value, a change handler and the remove handler. *)
Definition row_props : gmap string value :=
  <["value" := VStr "a"]>
    (<["onChange" := VFun "onChange" 1]>
    (<["removeField" := VFun "remove" 0]> ∅)).

(** Row props that bring an [icon] of their own. *)
Definition row_props_with_icon : gmap string value :=
  <["icon" := VStr "search"]> row_props.

(** [genesById = { ENSG1: { geneSymbol: 'ABC' } }] at location 1. *)
Definition genes_store : gmap loc obj :=
  <[1%positive := Obj (<["ENSG1" := VRef 2%positive]> ∅)]>
    (<[2%positive := Obj (<["geneSymbol" := VStr "ABC"]> ∅)]> ∅).

Definition known_row : Outliers.Datum :=
  {| Outliers.isSignificant := VBool true; Outliers.geneId := "ENSG1" |}.
Definition unknown_row : Outliers.Datum :=
  {| Outliers.isSignificant := VBool true; Outliers.geneId := "ENSG9" |}.
Definition quiet_row : Outliers.Datum :=
  {| Outliers.isSignificant := VUndefined; Outliers.geneId := "ENSG1" |}.

End MoreFixtures.




(** Case analysis on a membership in one of the selector tables. *)
Ltac each_selector H :=
  repeat (apply elem_of_cons in H as [H | H]; [injection H as -> -> |]);
  [.. | by apply elem_of_nil in H].

(** Membership of a listed pair in a table. *)
Ltac in_table :=
  repeat first [apply list_elem_of_here | apply list_elem_of_further].

(** A listed name is not one of the reserved prop names. *)
Ltac not_reserved := apply (bool_decide_unpack _); by vm_compute.

(** * Facts about the store *)

Module StoreFacts.

Lemma read_object h l m k :
  h !! l = Some (Obj m) → read h (VRef l) k = Ok (default (inherited k) (m !! k)).
Proof. intros H. unfold read. by rewrite H. Qed.

(** A key that [Object.prototype] does not know reads as an own property
    or as [undefined]. *)
Lemma read_object_plain h l m k :
  h !! l = Some (Obj m) → inherited k = VUndefined →
  read h (VRef l) k = Ok (default VUndefined (m !! k)).
Proof. intros H Hk. by rewrite (read_object _ _ _ _ H), Hk. Qed.

(** Everything [Object.prototype] holds under a name other than
    [__proto__] is a function. *)
Lemma Object_prototype_functions :
  map_Forall (λ _ v, match v with VFun _ _ => True | _ => False end)
             Object_prototype.
Proof.
  unfold Object_prototype. simpl.
  repeat (apply map_Forall_insert_2; [exact I|]). apply map_Forall_empty.
Qed.

Lemma inherited_cases (k : string) :
  inherited k = VUndefined ∨ inherited k = VProto
  ∨ ∃ name arity, inherited k = VFun name arity.
Proof.
  unfold inherited. destruct (String.eqb k "__proto__"); [by right; left|].
  destruct (Object_prototype !! k) as [v|] eqn:Hk; [|by left].
  apply Object_prototype_functions in Hk.
  destruct v; try done. right. right. eauto.
Qed.

Lemma object_of_inv h s m :
  object_of h s = Some m → ∃ l, s = VRef l ∧ h !! l = Some (Obj m).
Proof.
  destruct s as [| | | | | |l|]; simpl; try discriminate.
  destruct (h !! l) as [[m'|xs]|] eqn:E; try discriminate.
  intros [= ->]. eauto.
Qed.

(** ** The store only grows *)

Lemma fresh_lookup (h : gmap loc obj) : h !! fresh (dom h) = None.
Proof. apply not_elem_of_dom, is_fresh. Qed.

Lemma alloc_extends (h : gmap loc obj) (o : obj) : h ⊆ <[fresh (dom h) := o]> h.
Proof. apply insert_subseteq, fresh_lookup. Qed.

Lemma lookup_extends (h h' : gmap loc obj) l o :
  h ⊆ h' → h !! l = Some o → h' !! l = Some o.
Proof. intros Hsub Hl. by eapply lookup_weaken. Qed.

(** Reading a property of a value that is not a dangling reference gives
    the same in a larger store. *)
Lemma read_extends (h h' : gmap loc obj) v k :
  h ⊆ h' → (∀ l, v = VRef l → is_Some (h !! l)) → read h' v k = read h v k.
Proof.
  intros Hsub Hv. destruct v as [| | | | | |l|]; try reflexivity.
  destruct (Hv l eq_refl) as [o Ho].
  unfold read, own_enumerable.
  by rewrite (lookup_extends _ _ _ _ Hsub Ho), Ho.
Qed.

End StoreFacts.

(** * Properties of the selectors *)

Module SelectorFacts.
Import Selectors Fixtures StoreFacts.

Lemma slice_selector_reads fld sel :
  (fld, sel) ∈ slice_selectors → sel = λ s, get_prop s fld.
Proof. intros H. unfold slice_selectors in H. each_selector H; reflexivity. Qed.

Lemma loading_selector_reads fld sel :
  (fld, sel) ∈ loading_selectors →
  sel = λ s, let! r := get_prop s fld in get_prop r "isLoading".
Proof. intros H. unfold loading_selectors in H. each_selector H; reflexivity. Qed.

(** No field the selectors read is a name of [Object.prototype]. *)
Lemma slice_field_not_inherited fld sel :
  (fld, sel) ∈ slice_selectors → inherited fld = VUndefined.
Proof. intros H. unfold slice_selectors in H. each_selector H; reflexivity. Qed.

Lemma loading_field_not_inherited fld sel :
  (fld, sel) ∈ loading_selectors → inherited fld = VUndefined.
Proof. intros H. unfold loading_selectors in H. each_selector H; reflexivity. Qed.

Lemma state_fields_hold_no_flag :
  map_Forall (λ _ v, v ≠ VBool true) state_fields.
Proof. apply (bool_decide_unpack _). by vm_compute. Qed.

Lemma state_store_well_formed : well_formed_state state_store (VRef 1%positive).
Proof.
  exists state_fields. split; [reflexivity|].
  split; unfold slice_selectors, loading_selectors;
    repeat (apply Forall_cons; split); try apply Forall_nil;
    simpl; eauto.
Qed.

(** C1, counterexample: on the empty state [{}] the selector
    [getProjectsIsLoading] reads [isLoading] of [undefined] and throws, so
    it is not true that every selector returns [undefined] when its field
    is missing. *)
Lemma loading_selector_throws_on_missing_field :
  getProjectsIsLoading (VRef 1%positive) empty_state_store
    = (Throw TypeError, empty_state_store)
  ∧ ¬ missing_field_reads_undefined.
Proof.
  split; [reflexivity|].
  intros H.
  specialize (H "projectsLoading" getProjectsIsLoading).
  assert (Hin : ("projectsLoading", getProjectsIsLoading) ∈ selectors).
  { unfold selectors. apply elem_of_app. right. apply list_elem_of_here. }
  specialize (H Hin empty_state_store 1%positive ∅ eq_refl eq_refl).
  discriminate H.
Qed.

(** C1, amended: on a state object that lacks the top-level field a
    selector reads, each of the ten slice selectors returns [undefined]
    without throwing, while each of the six loading-flag selectors throws a
    TypeError; a loading-flag selector returns [undefined] when the loading
    record is there but has no [isLoading]. The store is unchanged in all
    three cases. *)
Theorem selectors_on_missing_field (h : gmap loc obj) (l : loc) (m : gmap string value) :
  h !! l = Some (Obj m) →
  (∀ fld sel, (fld, sel) ∈ slice_selectors → m !! fld = None →
     sel (VRef l) h = (Ok VUndefined, h))
  ∧ (∀ fld sel, (fld, sel) ∈ loading_selectors → m !! fld = None →
     sel (VRef l) h = (Throw TypeError, h))
  ∧ (∀ fld sel r mr, (fld, sel) ∈ loading_selectors →
     m !! fld = Some (VRef r) → h !! r = Some (Obj mr) →
     mr !! "isLoading" = None →
     sel (VRef l) h = (Ok VUndefined, h)).
Proof.
  intros Hl. repeat split.
  - intros fld sel Hin Hm. rewrite (slice_selector_reads _ _ Hin).
    unfold get_prop.
    by rewrite (read_object_plain _ _ _ _ Hl (slice_field_not_inherited _ _ Hin)), Hm.
  - intros fld sel Hin Hm. rewrite (loading_selector_reads _ _ Hin).
    unfold bind, get_prop.
    by rewrite (read_object_plain _ _ _ _ Hl (loading_field_not_inherited _ _ Hin)), Hm.
  - intros fld sel r mr Hin Hm Hr Hflag.
    rewrite (loading_selector_reads _ _ Hin).
    unfold bind, get_prop. rewrite (read_object _ _ _ _ Hl), Hm. cbn -[read].
    by rewrite (read_object_plain _ _ _ "isLoading" Hr eq_refl), Hflag.
Qed.

Lemma selectors_on_missing_field_witness :
  getUser (VRef 1%positive) empty_state_store = (Ok VUndefined, empty_state_store)
  ∧ getVariantIsLoading (VRef 1%positive) empty_state_store
      = (Throw TypeError, empty_state_store)
  ∧ getGenesIsLoading (VRef 1%positive) flagless_store = (Ok VUndefined, flagless_store).
Proof.
  destruct (selectors_on_missing_field empty_state_store 1%positive ∅ eq_refl)
    as (Hslice & Hload & _).
  destruct (selectors_on_missing_field flagless_store 1%positive
              (<["genesLoading" := VRef 2%positive]> ∅) eq_refl)
    as (_ & _ & Hflag).
  split; [|split].
  - apply (Hslice "user"); [|reflexivity].
    unfold slice_selectors. in_table.
  - apply (Hload "variantLoading"); [|reflexivity].
    unfold loading_selectors. in_table.
  - apply (Hflag "genesLoading" _ 2%positive ∅); try reflexivity.
    unfold loading_selectors. in_table.
Defined.

(** C2, counterexample: the fixture state is well formed, its field
    [projectsLoading] holds the record at location 12, and
    [getProjectsIsLoading] returns the flag [true] stored inside that
    record, not the record. No top-level field of that state holds what
    the selector returns, whichever field is taken to correspond to it. *)
Lemma loading_selector_returns_nested_flag :
  well_formed_state state_store (VRef 1%positive)
  ∧ read state_store (VRef 1%positive) "projectsLoading" = Ok (VRef 12%positive)
  ∧ getProjectsIsLoading (VRef 1%positive) state_store = (Ok (VBool true), state_store)
  ∧ ¬ selector_returns_top_level_field
  ∧ ¬ ∃ fld, ∀ h s, well_formed_state h s →
               getProjectsIsLoading s h = (read h s fld, h).
Proof.
  split; [apply state_store_well_formed|].
  split; [reflexivity|]. split; [reflexivity|]. split.
  - intros H.
    assert (Hin : ("projectsLoading", getProjectsIsLoading) ∈ selectors).
    { unfold selectors. apply elem_of_app. right. apply list_elem_of_here. }
    specialize (H _ _ Hin state_store (VRef 1%positive) state_store_well_formed).
    discriminate H.
  - intros [fld H].
    specialize (H state_store (VRef 1%positive) state_store_well_formed).
    rewrite (read_object state_store 1%positive state_fields fld eq_refl) in H.
    destruct (state_fields !! fld) as [v|] eqn:Hfld.
    + apply state_fields_hold_no_flag in Hfld.
      injection H as H. by symmetry in H.
    + injection H as H. cbn [default from_option id] in H.
      destruct (inherited_cases fld) as [Hi | [Hi | (name & arity & Hi)]];
        rewrite Hi in H; discriminate H.
Qed.

(** C2, amended: on a well-formed state each of the ten slice selectors
    returns exactly the value stored at its top-level field (the same
    reference, nothing computed), and each of the six loading-flag
    selectors returns the [isLoading] property of the record stored at its
    top-level field ([undefined] if the record has none) rather than the
    record itself. Neither throws and the store is unchanged. *)
Theorem selectors_on_well_formed_state (h : gmap loc obj) (s : value) :
  well_formed_state h s →
  (∀ fld sel, (fld, sel) ∈ slice_selectors →
     ∃ v, read h s fld = Ok v ∧ sel s h = (Ok v, h))
  ∧ (∀ fld sel, (fld, sel) ∈ loading_selectors →
     ∃ r mr, read h s fld = Ok r ∧ object_of h r = Some mr ∧
             sel s h = (Ok (default VUndefined (mr !! "isLoading")), h)).
Proof.
  intros (m & Hobj & Hslices & Hloading).
  apply object_of_inv in Hobj as (l & -> & Hl).
  split.
  - intros fld sel Hin.
    rewrite (slice_selector_reads _ _ Hin).
    exists (default (inherited fld) (m !! fld)).
    unfold get_prop. by rewrite (read_object _ _ _ _ Hl).
  - intros fld sel Hin.
    rewrite Forall_forall in Hloading.
    destruct (Hloading _ Hin) as (r & Hr & mr & Hmr). simpl in Hr.
    exists r, mr.
    rewrite (loading_selector_reads _ _ Hin).
    unfold bind, get_prop. rewrite (read_object _ _ _ _ Hl), Hr.
    split; [reflexivity|]. split; [exact Hmr|].
    apply object_of_inv in Hmr as (lr & -> & Hlr). cbn -[read].
    by rewrite (read_object_plain _ _ _ "isLoading" Hlr eq_refl).
Qed.

Lemma selectors_on_well_formed_state_witness :
  (∃ v, read state_store (VRef 1%positive) "user" = Ok v
        ∧ getUser (VRef 1%positive) state_store = (Ok v, state_store))
  ∧ (∃ r mr, read state_store (VRef 1%positive) "genesLoading" = Ok r
        ∧ object_of state_store r = Some mr
        ∧ getGenesIsLoading (VRef 1%positive) state_store
            = (Ok (default VUndefined (mr !! "isLoading")), state_store)).
Proof.
  destruct (selectors_on_well_formed_state state_store (VRef 1%positive)
              state_store_well_formed) as (Hslice & Hload).
  split.
  - apply Hslice. unfold slice_selectors. in_table.
  - apply Hload. unfold loading_selectors. in_table.
Defined.

(** C7: every selector is free of side effects. Whatever it is called on,
    and whether it returns or throws, the store is the one it was given,
    so no field of the state (or of anything else) has changed; and
    calling it again gives the same outcome, since nothing is remembered
    between calls. *)
Theorem selectors_leave_store_unchanged :
  Forall (λ fs : string * (value → M value),
            ∀ (s : value) (h : gmap loc obj),
              (fs.2 s h).2 = h ∧ fs.2 s (fs.2 s h).2 = fs.2 s h)
         selectors.
Proof.
  apply Forall_forall. intros [fld sel] Hin s h. simpl.
  assert (Hstore : (sel s h).2 = h).
  { apply elem_of_app in Hin as [Hin | Hin].
    - by rewrite (slice_selector_reads _ _ Hin).
    - rewrite (loading_selector_reads _ _ Hin).
      unfold bind, get_prop. simpl. by destruct (read h s fld). }
  split; [exact Hstore|]. by rewrite Hstore.
Qed.

End SelectorFacts.

(** * Properties of the list field editor *)

Module ListFieldFacts.
Import ListField Fixtures StoreFacts.

Lemma kept_not_dangling (h : gmap loc obj) v :
  kept h v = true → ∀ l, v = VRef l → is_Some (h !! l).
Proof.
  intros Hk l ->. unfold kept, read, own_enumerable in Hk. simpl in Hk.
  destruct (h !! l) as [o|]; [eauto|]. discriminate Hk.
Qed.

Lemma kept_extends (h h' : gmap loc obj) v :
  h ⊆ h' → kept h v = true → kept h' v = true.
Proof.
  intros Hsub Hk. unfold kept.
  rewrite (read_extends _ _ _ _ Hsub (kept_not_dangling _ _ Hk)). exact Hk.
Qed.

(** ** Line 27 *)

(** The two outcomes of the defaulting expression: the value itself, or a
    new array holding one empty string. It never throws. *)
Lemma defaulted_run (v : value) (h : gmap loc obj) :
  defaulted v h =
    if kept h v then (Ok v, h)
    else (Ok (VRef (fresh (dom h))), <[fresh (dom h) := Arr [VStr ""]]> h).
Proof.
  unfold defaulted, kept, bind, js_and, get_prop, ret, alloc.
  destruct (truthy v) eqn:Ht; simpl.
  - destruct (read h v "length") as [c|e] eqn:Hr.
    + by destruct (truthy c).
    + destruct v; simpl in Ht; try discriminate; simpl in Hr;
        repeat case_match; discriminate.
  - by rewrite Ht.
Qed.

Lemma kept_new_entry (h : gmap loc obj) :
  kept (<[fresh (dom h) := Arr [VStr ""]]> h) (VRef (fresh (dom h))) = true.
Proof. unfold kept, read. simpl. by rewrite lookup_insert_eq. Qed.

(** What line 27 yields is kept by line 27, in any later store. *)
Lemma defaulted_result_kept (v v' : value) (h h1 h2 : gmap loc obj) :
  defaulted v h = (Ok v', h1) → h1 ⊆ h2 → kept h2 v' = true.
Proof.
  rewrite defaulted_run. destruct (kept h v) eqn:Hk; intros [= <- <-] Hsub.
  - by eapply kept_extends.
  - eapply kept_extends; [exact Hsub|]. apply kept_new_entry.
Qed.

Lemma defaulted_extends (v v' : value) (h h1 : gmap loc obj) :
  defaulted v h = (Ok v', h1) → h ⊆ h1.
Proof.
  rewrite defaulted_run. destruct (kept h v); intros [= <- <-].
  - reflexivity.
  - apply alloc_extends.
Qed.

Lemma defaulted_total (v : value) (h : gmap loc obj) :
  ∃ v' h1, defaulted v h = (Ok v', h1).
Proof. rewrite defaulted_run. destruct (kept h v); eauto. Qed.

(** ** Lines 17-28 and the returned element *)

Lemma formFields_run (p : Props) (h : gmap loc obj) :
  ∃ f h0, formFields p h = (Ok f, h0) ∧ h ⊆ h0.
Proof.
  unfold formFields, bind, alloc. cbv zeta.
  eexists _, _. split; [reflexivity|].
  etrans; [apply alloc_extends|]. etrans; [apply alloc_extends|].
  apply alloc_extends.
Qed.

Lemma defaultedInitialValues_run (p : Props) (h h1 : gmap loc obj) l m v :
  initialValues p = VRef l → h !! l = Some (Obj m) →
  defaulted (default (inherited (field p)) (m !! field p)) h = (Ok v, h1) →
  defaultedInitialValues p h =
    (Ok (VRef (fresh (dom h1))),
     <[fresh (dom h1) := Obj (<[field p := v]> m)]> h1).
Proof.
  intros Hiv Hl Hd.
  unfold defaultedInitialValues, bind, get_prop.
  rewrite Hiv, (read_object _ _ _ _ Hl), Hd.
  unfold alloc, own_enumerable. cbv zeta.
  by rewrite (lookup_extends _ _ _ _ (defaulted_extends _ _ _ _ Hd) Hl).
Qed.

Lemma restProps_no_initialValues (p : Props) :
  restProps p !! "initialValues" = None.
Proof.
  unfold restProps. rewrite lookup_insert_ne by done.
  rewrite lookup_delete_ne by done. apply lookup_delete_eq.
Qed.

(** One run of the component on props whose [initialValues] is a plain
    object: it returns an element for [BaseFieldView] whose
    [initialValues] prop is a new object, equal to the given mapping with
    the named field set to what line 27 yields. *)
Lemma ListFieldView_run (p : Props) (h : gmap loc obj) l m :
  initialValues p = VRef l → h !! l = Some (Obj m) →
  ∃ h0 v h1 d e h2,
    h ⊆ h0
    ∧ defaulted (default (inherited (field p)) (m !! field p)) h0 = (Ok v, h1)
    ∧ h1 ⊆ h2
    ∧ ListFieldView p h = (Ok (VRef e), h2)
    ∧ is_Some (object_of h2 (VRef e))
    ∧ read h2 (VRef e) "type" = Ok BaseFieldView
    ∧ renderedInitialValues h2 (VRef e) = Ok (VRef d)
    ∧ h1 !! d = None
    ∧ h2 !! d = Some (Obj (<[field p := v]> m))
    ∧ normalizedValue p h2 (VRef e) = Ok v.
Proof.
  intros Hiv Hl.
  destruct (formFields_run p h) as (f & h0 & Hf & Hsub0).
  destruct (defaulted_total (default (inherited (field p)) (m !! field p)) h0)
    as (v & h1 & Hd).
  pose proof (defaultedInitialValues_run p h0 h1 l m v Hiv
                (lookup_extends _ _ _ _ Hsub0 Hl) Hd) as Hdiv.
  set (d := fresh (dom h1)) in *.
  set (hd := <[d := Obj (<[field p := v]> m)]> h1) in *.
  set (config := restProps p ∪ <["formFields" := f]>
                                (<["initialValues" := VRef d]> ∅)).
  set (stored := foldr delete config reserved_props).
  set (pr := fresh (dom hd)).
  set (hp := <[pr := Obj stored]> hd).
  set (e := fresh (dom hp)).
  set (elt := Obj (<["type" := BaseFieldView]> (<["props" := VRef pr]> ∅))).
  assert (Hrun : ListFieldView p h = (Ok (VRef e), <[e := elt]> hp)).
  { unfold ListFieldView, bind. rewrite Hf, Hdiv. reflexivity. }
  assert (Hpr : <[e := elt]> hp !! pr = Some (Obj stored)).
  { eapply lookup_extends; [apply alloc_extends|]. apply lookup_insert_eq. }
  assert (Hdd : <[e := elt]> hp !! d = Some (Obj (<[field p := v]> m))).
  { eapply lookup_extends; [apply alloc_extends|].
    eapply lookup_extends; [apply alloc_extends|]. apply lookup_insert_eq. }
  assert (Hprops : read (<[e := elt]> hp) (VRef e) "props" = Ok (VRef pr)).
  { erewrite read_object by apply lookup_insert_eq.
    rewrite lookup_insert_ne by done. by rewrite lookup_insert_eq. }
  assert (Hrendered : renderedInitialValues (<[e := elt]> hp) (VRef e) = Ok (VRef d)).
  { unfold renderedInitialValues. rewrite Hprops. unfold result_bind.
    rewrite (read_object _ _ _ _ Hpr). unfold stored, config. simpl foldr.
    rewrite !lookup_delete_ne by done.
    rewrite lookup_union_r by apply restProps_no_initialValues.
    rewrite lookup_insert_ne by done. by rewrite lookup_insert_eq. }
  exists h0, v, h1, d, e, (<[e := elt]> hp).
  repeat split; try done.
  - etrans; [apply alloc_extends|]. etrans; apply alloc_extends.
  - simpl. rewrite lookup_insert_eq. eauto.
  - erewrite read_object by apply lookup_insert_eq.
    by rewrite lookup_insert_eq.
  - apply fresh_lookup.
  - unfold normalizedValue. rewrite Hrendered. unfold result_bind.
    rewrite (read_object _ _ _ _ Hdd).
    by rewrite lookup_insert_eq.
Qed.

(** Nothing the component does removes or rewrites a stored object: on any
    props, returning or throwing, the final store extends the initial one. *)
Lemma bind_extends {A B} (c : M A) (k : A → M B) (h : gmap loc obj) :
  h ⊆ (c h).2 → (∀ a h', h' ⊆ (k a h').2) → h ⊆ (bind c k h).2.
Proof.
  intros Hc Hk. unfold bind. destruct (c h) as [[a|e] h'] eqn:E; simpl in *.
  - etrans; [exact Hc|]. apply Hk.
  - exact Hc.
Qed.

Lemma defaulted_grows (v : value) (h : gmap loc obj) : h ⊆ (defaulted v h).2.
Proof.
  rewrite defaulted_run. destruct (kept h v); simpl;
    [reflexivity | apply alloc_extends].
Qed.

Lemma ListFieldView_grows (p : Props) (h : gmap loc obj) :
  h ⊆ (ListFieldView p h).2.
Proof.
  unfold ListFieldView. apply bind_extends.
  { destruct (formFields_run p h) as (f & h0 & -> & Hsub). exact Hsub. }
  intros fields h0. apply bind_extends.
  { unfold defaultedInitialValues. apply bind_extends; [reflexivity|].
    intros iv h1. apply bind_extends; [apply defaulted_grows|].
    intros v h2. apply alloc_extends. }
  intros dv h1. unfold createElement. apply bind_extends.
  { apply alloc_extends. }
  intros pr h2. apply alloc_extends.
Qed.

(** A name that is not a method of [Object.prototype] is inherited, if at
    all, as the prototype itself, which has no [length]: line 27 does not
    keep it. *)
Lemma inherited_not_kept (h : gmap loc obj) (k : string) :
  Object_prototype !! k = None → kept h (inherited k) = false.
Proof.
  intros Hk. unfold inherited. rewrite Hk.
  by destruct (String.eqb k "__proto__").
Qed.


(** ** The claims *)

(** C3, the code at the failing input: when [initialValues] is not
    supplied, the component throws a TypeError at line 24
    ([initialValues[props.field]] reads a property of [undefined]) instead
    of showing a single blank entry, although its [propTypes] declare
    [initialValues] optional. *)
Theorem missing_initialValues_throws
    (f : string) (label : value) (rest : gmap string value) (h : gmap loc obj) :
  (ListFieldView {| field := f; initialValues := VUndefined;
                    addElementLabel := label; passThrough := rest |} h).1
  = Throw TypeError.
Proof. reflexivity. Qed.




(** C5: if the value of the named field in the initial-values mapping is a
    non-empty sequence, the normalized value is that very sequence: the
    same reference, not a copy, and its elements are as they were. *)
Theorem non_empty_sequence_preserved
    (p : Props) (h : gmap loc obj) (l a : loc) (m : gmap string value)
    (xs : list value) :
  initialValues p = VRef l → h !! l = Some (Obj m) →
  m !! field p = Some (VRef a) → h !! a = Some (Arr xs) → xs ≠ [] →
  ∃ elt h',
    ListFieldView p h = (Ok elt, h')
    ∧ normalizedValue p h' elt = Ok (VRef a)
    ∧ elements_of h' (VRef a) = Some xs.
Proof.
  intros Hiv Hl Hm Ha Hxs.
  destruct (ListFieldView_run p h l m Hiv Hl)
    as (h0 & v & h1 & d & e & h2 & Hsub0 & Hd & Hsub2 & Hrun & _ & _ & _ & _ & _ & Hnv).
  rewrite Hm in Hd. simpl in Hd.
  assert (Hk : kept h0 (VRef a) = true).
  { unfold kept, read. simpl. rewrite (lookup_extends _ _ _ _ Hsub0 Ha).
    simpl. destruct xs; [done|reflexivity]. }
  rewrite defaulted_run, Hk in Hd. injection Hd as <- <-.
  exists (VRef e), h2. split; [exact Hrun|]. split; [exact Hnv|].
  simpl. by rewrite (lookup_extends _ _ _ _ Hsub2 (lookup_extends _ _ _ _ Hsub0 Ha)).
Qed.

Lemma non_empty_sequence_preserved_witness :
  ∃ elt h',
    ListFieldView (props_with (VRef 1%positive)) two_names_store = (Ok elt, h')
    ∧ normalizedValue (props_with (VRef 1%positive)) h' elt = Ok (VRef 2%positive)
    ∧ elements_of h' (VRef 2%positive) = Some [VStr "a"; VStr "b"].
Proof.
  apply (non_empty_sequence_preserved
           (props_with (VRef 1%positive)) two_names_store 1%positive 2%positive
           (<["aliases" := VRef 2%positive]> (<["note" := VStr "n"]> ∅)));
    [reflexivity | reflexivity | reflexivity | reflexivity | discriminate].
Defined.




(** C8: called with a field identifier and an initial-values mapping (a
    plain object, whatever it holds), the component does not throw; it
    returns an element, which is neither [null] nor [undefined], for
    [BaseFieldView]. *)
Theorem render_returns_element
    (p : Props) (h : gmap loc obj) (l : loc) (m : gmap string value) :
  initialValues p = VRef l → h !! l = Some (Obj m) →
  ∃ elt h',
    ListFieldView p h = (Ok elt, h')
    ∧ elt ≠ VNull ∧ elt ≠ VUndefined
    ∧ is_Some (object_of h' elt)
    ∧ read h' elt "type" = Ok BaseFieldView.
Proof.
  intros Hiv Hl.
  destruct (ListFieldView_run p h l m Hiv Hl)
    as (h0 & v & h1 & d & e & h2 & _ & _ & _ & Hrun & Hobj & Htype & _).
  exists (VRef e), h2. repeat split; done.
Qed.

Lemma render_returns_element_witness :
  ∃ elt h',
    ListFieldView (props_with (VRef 1%positive)) absent_store = (Ok elt, h')
    ∧ elt ≠ VNull ∧ elt ≠ VUndefined
    ∧ is_Some (object_of h' elt)
    ∧ read h' elt "type" = Ok BaseFieldView.
Proof.
  apply (render_returns_element
           (props_with (VRef 1%positive)) absent_store 1%positive ∅);
    reflexivity.
Defined.


(** C9: the normalization is idempotent. For every value, line 27 applied
    to what line 27 yields gives that same value and allocates nothing;
    and feeding the mapping the component has built back in as
    [initialValues] gives the same normalized value for the named field
    (the same reference). *)
Theorem normalization_idempotent :
  (∀ (v : value) (h : gmap loc obj),
     ∃ v' h', defaulted v h = (Ok v', h') ∧ defaulted v' h' = (Ok v', h'))
  ∧ (∀ (p : Props) (h : gmap loc obj) (l : loc) (m : gmap string value),
       initialValues p = VRef l → h !! l = Some (Obj m) →
       ∃ elt h' d v,
         ListFieldView p h = (Ok elt, h')
         ∧ renderedInitialValues h' elt = Ok d
         ∧ normalizedValue p h' elt = Ok v
         ∧ ∃ elt2 h'',
             ListFieldView (with_initialValues p d) h' = (Ok elt2, h'')
             ∧ normalizedValue p h'' elt2 = Ok v).
Proof.
  split.
  - intros v h. destruct (defaulted_total v h) as (v' & h' & Hd).
    exists v', h'. split; [exact Hd|].
    rewrite defaulted_run.
    by rewrite (defaulted_result_kept _ _ _ _ h' Hd).
  - intros p h l m Hiv Hl.
    destruct (ListFieldView_run p h l m Hiv Hl)
      as (h0 & v & h1 & d & e & h2 & _ & Hd & Hsub2 & Hrun & _ & _ & Hr & _ & Hdd & Hnv).
    exists (VRef e), h2, (VRef d), v. repeat split; try done.
    destruct (ListFieldView_run (with_initialValues p (VRef d)) h2 d
                (<[field p := v]> m) eq_refl Hdd)
      as (h0' & v' & h1' & d' & e' & h2' & Hsub0' & Hd' & _ & Hrun' & _ & _ & _ & _ & _ & Hnv').
    exists (VRef e'), h2'. split; [exact Hrun'|].
    simpl in Hd'. rewrite lookup_insert_eq in Hd'. simpl in Hd'.
    rewrite defaulted_run in Hd'.
    rewrite (defaulted_result_kept _ _ _ _ h0' Hd) in Hd'
      by (etrans; [exact Hsub2 | exact Hsub0']).
    injection Hd' as <- <-. exact Hnv'.
Qed.

Lemma normalization_idempotent_witness :
  ∃ elt h' d v,
    ListFieldView (props_with (VRef 1%positive)) empty_list_store = (Ok elt, h')
    ∧ renderedInitialValues h' elt = Ok d
    ∧ normalizedValue (props_with (VRef 1%positive)) h' elt = Ok v
    ∧ ∃ elt2 h'',
        ListFieldView (with_initialValues (props_with (VRef 1%positive)) d) h'
          = (Ok elt2, h'')
        ∧ normalizedValue (props_with (VRef 1%positive)) h'' elt2 = Ok v.
Proof.
  apply (proj2 normalization_idempotent
           (props_with (VRef 1%positive)) empty_list_store 1%positive
           (<["aliases" := VRef 2%positive]> ∅));
    reflexivity.
Defined.

(** C10: the component does not mutate its initial-values mapping. Every
    object of the initial store, the mapping among them, is the same in
    the final store, on any props and whether the call returns or throws.
    When the mapping is a plain object, the defaulted mapping passed on is
    a new object, and each of its entries under a key other than the named
    field is the value the input mapping has under that key (absent where
    it is absent). *)
Theorem initialValues_not_mutated :
  (∀ (p : Props) (h : gmap loc obj) (l0 : loc) (o : obj),
     h !! l0 = Some o → (ListFieldView p h).2 !! l0 = Some o)
  ∧ (∀ (p : Props) (h : gmap loc obj) (l : loc) (m : gmap string value),
       initialValues p = VRef l → h !! l = Some (Obj m) →
       ∃ elt h' d md,
         ListFieldView p h = (Ok elt, h')
         ∧ h' !! l = Some (Obj m)
         ∧ renderedInitialValues h' elt = Ok (VRef d)
         ∧ h !! d = None
         ∧ h' !! d = Some (Obj md)
         ∧ ∀ k, k ≠ field p → md !! k = m !! k).
Proof.
  split.
  - intros p h l0 o Hl0.
    exact (lookup_extends _ _ _ _ (ListFieldView_grows p h) Hl0).
  - intros p h l m Hiv Hl.
    destruct (ListFieldView_run p h l m Hiv Hl)
      as (h0 & v & h1 & d & e & h2 & Hsub0 & Hd & Hsub2 & Hrun & _ & _ & Hr & Hfresh & Hdd & _).
    pose proof (defaulted_extends _ _ _ _ Hd) as Hsub1.
    exists (VRef e), h2, d, (<[field p := v]> m).
    repeat split; try done.
    + do 3 (eapply lookup_extends; [eassumption|]). exact Hl.
    + destruct (h !! d) as [o|] eqn:Hd0; [|reflexivity].
      rewrite (lookup_extends _ _ _ _ Hsub1 (lookup_extends _ _ _ _ Hsub0 Hd0))
        in Hfresh.
      discriminate Hfresh.
    + intros k Hk. by rewrite lookup_insert_ne.
Qed.

Lemma initialValues_not_mutated_witness :
  ∃ elt h' d md,
    ListFieldView (props_with (VRef 1%positive)) two_names_store = (Ok elt, h')
    ∧ h' !! 1%positive
        = Some (Obj (<["aliases" := VRef 2%positive]> (<["note" := VStr "n"]> ∅)))
    ∧ renderedInitialValues h' elt = Ok (VRef d)
    ∧ two_names_store !! d = None
    ∧ h' !! d = Some (Obj md)
    ∧ ∀ k, k ≠ "aliases" →
           md !! k = (<["aliases" := VRef 2%positive]> (<["note" := VStr "n"]> ∅)
                        : gmap string value) !! k.
Proof.
  apply (proj2 initialValues_not_mutated
           (props_with (VRef 1%positive)) two_names_store 1%positive
           (<["aliases" := VRef 2%positive]> (<["note" := VStr "n"]> ∅)));
    reflexivity.
Defined.

End ListFieldFacts.

(** * Further properties of the selectors *)

Module SelectorEdges.
Import Selectors StoreFacts SelectorFacts.

(** The only read that throws is a read of [null] or [undefined]. *)
Lemma read_throws_iff (h : gmap loc obj) (v : value) (k : string) :
  read h v k = Throw TypeError ↔ nullish v = true.
Proof.
  destruct v as [| |b|n|s|f a|l|]; simpl; try done;
    repeat case_match; done.
Qed.

Lemma read_ok_or_throws (h : gmap loc obj) (v : value) (k : string) :
  (∃ x, read h v k = Ok x) ∨ read h v k = Throw TypeError.
Proof. destruct (read h v k) as [x|[]]; eauto. Qed.

(** A slice selector throws exactly when the state is [null] or
    [undefined]; a loading-flag selector throws exactly when the state, or
    the loading record stored in it, is [null] or [undefined] (a missing
    record reads as [undefined]). On anything else, primitives included,
    they return. *)
Theorem selectors_throw_exactly_on_nullish :
  Forall (λ fs : string * (value → M value),
            ∀ (s : value) (h : gmap loc obj),
              (fs.2 s h).1 = Throw TypeError ↔ nullish s = true)
         slice_selectors
  ∧ Forall (λ fs : string * (value → M value),
            ∀ (s : value) (h : gmap loc obj),
              (fs.2 s h).1 = Throw TypeError
              ↔ (nullish s = true
                 ∨ ∃ r, read h s fs.1 = Ok r ∧ nullish r = true))
         loading_selectors.
Proof.
  split; apply Forall_forall; intros [fld sel] Hin s h; simpl.
  - rewrite (slice_selector_reads _ _ Hin). unfold get_prop. simpl.
    apply read_throws_iff.
  - rewrite (loading_selector_reads _ _ Hin). unfold bind, get_prop.
    destruct (read h s fld) as [r|[]] eqn:Hs; simpl.
    + rewrite read_throws_iff. split.
      * intros Hr. right. eauto.
      * intros [Hn | (r' & [= <-] & Hr)]; [|exact Hr].
        apply (read_throws_iff h s fld) in Hn. congruence.
    + split; [|done]. intros _. left. by apply (read_throws_iff h s fld).
Qed.

End SelectorEdges.

(** * Further properties of the list field editor *)

Module ListFieldEdges.
Import ListField MoreFixtures StoreFacts ListFieldFacts.

(** ** Elements *)

Lemma lookup_not_reserved (config : gmap string value) (k : string) :
  k ∉ reserved_props → foldr delete config reserved_props !! k = config !! k.
Proof.
  intros Hk. unfold reserved_props in *. simpl.
  rewrite !lookup_delete_ne; [done|..]; intros <-; apply Hk; in_table.
Qed.

Lemma lookup_reserved (config : gmap string value) (k : string) :
  k ∈ reserved_props → foldr delete config reserved_props !! k = None.
Proof.
  intros Hk. unfold reserved_props in *. simpl.
  repeat (apply elem_of_cons in Hk as [-> | Hk];
          [repeat (rewrite lookup_delete_ne by done); apply lookup_delete_eq|]).
  by apply elem_of_nil in Hk.
Qed.

(** An element built by [createElement] shows its component and, prop by
    prop, the configuration it was built from, except under the reserved
    names, in the store it is built in and in every store that extends
    it. *)
Lemma createElement_run (type : value) (config : gmap string value) (h : gmap loc obj) :
  ∃ e h', createElement type config h = (Ok (VRef e), h')
          ∧ h ⊆ h'
          ∧ h !! e = None
          ∧ ∀ h'', h' ⊆ h'' →
              read h'' (VRef e) "type" = Ok type
              ∧ (∀ k, k ∉ reserved_props →
                      elementProp h'' (VRef e) k
                      = Ok (default (inherited k) (config !! k)))
              ∧ (∀ k, k ∈ reserved_props →
                      elementProp h'' (VRef e) k = Ok VUndefined).
Proof.
  set (stored := foldr delete config reserved_props).
  set (pr := fresh (dom h)).
  set (hp := <[pr := Obj stored]> h).
  set (e := fresh (dom hp)).
  set (elt := Obj (<["type" := type]> (<["props" := VRef pr]> ∅))).
  exists e, (<[e := elt]> hp).
  assert (He : hp !! e = None) by apply fresh_lookup.
  split; [reflexivity|]. split; [etrans; apply alloc_extends|]. split.
  { destruct (h !! e) as [o|] eqn:Hhe; [|done].
    pose proof (lookup_extends h hp e o (alloc_extends h (Obj stored)) Hhe).
    congruence. }
  intros h'' Hsub.
  assert (Helt : h'' !! e = Some elt).
  { eapply lookup_extends; [exact Hsub|]. apply lookup_insert_eq. }
  assert (Hpr : h'' !! pr = Some (Obj stored)).
  { eapply lookup_extends; [exact Hsub|].
    eapply lookup_extends; [apply alloc_extends|]. apply lookup_insert_eq. }
  assert (Hprop : ∀ k, elementProp h'' (VRef e) k
                       = Ok (default (inherited k) (stored !! k))).
  { intros k. unfold elementProp.
    rewrite (read_object _ _ _ _ Helt).
    rewrite lookup_insert_ne by done. rewrite lookup_insert_eq.
    unfold result_bind. cbn [default from_option id].
    by rewrite (read_object _ _ _ _ Hpr). }
  split; [|split].
  - rewrite (read_object _ _ _ _ Helt). by rewrite lookup_insert_eq.
  - intros k Hk. rewrite Hprop. unfold stored.
    by rewrite (lookup_not_reserved _ _ Hk).
  - intros k Hk. rewrite Hprop. unfold stored.
    rewrite (lookup_reserved _ _ Hk). unfold reserved_props in Hk.
    repeat (apply elem_of_cons in Hk as [-> | Hk]; [reflexivity|]).
    by apply elem_of_nil in Hk.
Qed.

(** ** Lines 17-23 *)

Lemma formFields_content (p : Props) (h : gmap loc obj) :
  ∃ a fd lab h0,
    formFields p h = (Ok (VRef a), h0)
    ∧ h ⊆ h0
    ∧ h0 !! a = Some (Arr [VRef fd])
    ∧ h0 !! fd = Some (Obj (<["name" := VStr (field p)]>
                           (<["isArrayField" := VBool true]>
                           (<["addArrayElement" := VRef lab]>
                           (<["validate" := validators_required]>
                           (<["component" := RemovableInput]> ∅))))))
    ∧ h0 !! lab = Some (Obj (<["label" := addElementLabel p]> ∅)).
Proof.
  unfold formFields, bind, alloc. cbv zeta.
  eexists _, _, _, _. split; [reflexivity|]. repeat split.
  - etrans; [apply alloc_extends|]. etrans; apply alloc_extends.
  - apply lookup_insert_eq.
  - eapply lookup_extends; [apply alloc_extends|]. apply lookup_insert_eq.
  - eapply lookup_extends; [apply alloc_extends|].
    eapply lookup_extends; [apply alloc_extends|]. apply lookup_insert_eq.
Qed.

(** ** Lines 24-28 on any [initialValues] *)

Lemma read_not_nullish (h : gmap loc obj) (v : value) (k : string) :
  nullish v = false → ∃ x, read h v k = Ok x.
Proof.
  intros Hn. destruct (read h v k) as [x|[]] eqn:Hr; [eauto|].
  apply SelectorEdges.read_throws_iff in Hr. congruence.
Qed.

Lemma defaultedInitialValues_any (p : Props) (h : gmap loc obj) :
  nullish (initialValues p) = false →
  ∃ d h1, defaultedInitialValues p h = (Ok d, h1) ∧ h ⊆ h1.
Proof.
  intros Hn. unfold defaultedInitialValues, bind, get_prop.
  destruct (read_not_nullish h (initialValues p) (field p) Hn) as [x ->].
  destruct (defaulted_total x h) as (v & h1 & Hd). rewrite Hd.
  unfold alloc. cbv zeta. eexists _, _. split; [reflexivity|].
  etrans; [exact (defaulted_extends _ _ _ _ Hd)|]. apply alloc_extends.
Qed.

(** One run on props whose [initialValues] is neither [null] nor
    [undefined]: the props of the returned element are the rest props on
    top of the descriptor list and the defaulted mapping. *)
Lemma ListFieldView_element (p : Props) (h : gmap loc obj) :
  nullish (initialValues p) = false →
  ∃ f h0 d e h2,
    formFields p h = (Ok f, h0)
    ∧ h0 ⊆ h2
    ∧ ListFieldView p h = (Ok (VRef e), h2)
    ∧ read h2 (VRef e) "type" = Ok BaseFieldView
    ∧ ∀ k, k ∉ reserved_props →
           elementProp h2 (VRef e) k
           = Ok (default (inherited k)
                   ((restProps p ∪ <["formFields" := f]>
                                   (<["initialValues" := d]> ∅)) !! k)).
Proof.
  intros Hn.
  destruct (formFields_content p h) as (a & fd & lab & h0 & Hf & _).
  destruct (defaultedInitialValues_any p h0 Hn) as (d & h1 & Hd & Hsub1).
  destruct (createElement_run BaseFieldView
              (restProps p ∪ <["formFields" := VRef a]>
                             (<["initialValues" := d]> ∅)) h1)
    as (e & h2 & Hc & Hsub2 & _ & Hshown).
  destruct (Hshown h2 (reflexivity _)) as (Htype & Hprops & _).
  exists (VRef a), h0, d, e, h2. repeat split; try done.
  - by etrans.
  - unfold ListFieldView, bind. by rewrite Hf, Hd, Hc.
Qed.

(** ** Properties *)

(** The component throws exactly when [initialValues] is [null] or
    [undefined] (line 24 reads a property of it). On every other value,
    a plain object, an array or a primitive, it returns an element for
    [BaseFieldView]. *)
Theorem ListFieldView_throws_exactly_on_nullish (p : Props) (h : gmap loc obj) :
  if nullish (initialValues p)
  then (ListFieldView p h).1 = Throw TypeError
  else ∃ e h', ListFieldView p h = (Ok (VRef e), h')
               ∧ read h' (VRef e) "type" = Ok BaseFieldView.
Proof.
  destruct (nullish (initialValues p)) eqn:Hn.
  - destruct p as [f iv lbl rest]. simpl in Hn.
    destruct iv; try discriminate Hn; reflexivity.
  - destruct (ListFieldView_element p h Hn)
      as (f & h0 & d & e & h2 & _ & _ & Hrun & Htype & _).
    eauto.
Qed.

(** Unless the caller passes a prop named [formFields], the element's
    [formFields] prop is an array of exactly one descriptor: its [name] is
    the field identifier, [isArrayField] is [true], [validate] is
    [validators.required], [component] is [RemovableInput], and
    [addArrayElement.label] is the [addElementLabel] prop. *)
Theorem formFields_describes_the_field (p : Props) (h : gmap loc obj) :
  nullish (initialValues p) = false →
  passThrough p !! "formFields" = None →
  ∃ elt h' fields descriptor add,
    ListFieldView p h = (Ok elt, h')
    ∧ elementProp h' elt "formFields" = Ok fields
    ∧ elements_of h' fields = Some [descriptor]
    ∧ read h' descriptor "name" = Ok (VStr (field p))
    ∧ read h' descriptor "isArrayField" = Ok (VBool true)
    ∧ read h' descriptor "validate" = Ok validators_required
    ∧ read h' descriptor "component" = Ok RemovableInput
    ∧ read h' descriptor "addArrayElement" = Ok add
    ∧ read h' add "label" = Ok (addElementLabel p).
Proof.
  intros Hn Hnone.
  destruct (ListFieldView_element p h Hn)
    as (f & h0 & d & e & h2 & Hf & Hsub & Hrun & _ & Hprops).
  destruct (formFields_content p h) as (a & fd & lab & h0' & Hf' & _ & Ha & Hfd & Hlab).
  rewrite Hf in Hf'. injection Hf' as -> <-.
  exists (VRef e), h2, (VRef a), (VRef fd), (VRef lab).
  pose proof (lookup_extends _ _ _ _ Hsub Ha) as Ha2.
  pose proof (lookup_extends _ _ _ _ Hsub Hfd) as Hfd2.
  pose proof (lookup_extends _ _ _ _ Hsub Hlab) as Hlab2.
  split; [exact Hrun|]. split.
  { rewrite Hprops by not_reserved. rewrite lookup_union_r.
    - by rewrite lookup_insert_eq.
    - unfold restProps. rewrite lookup_insert_ne by done.
      rewrite !lookup_delete_ne by done. exact Hnone. }
  split; [simpl; by rewrite Ha2|].
  rewrite !(read_object _ _ _ _ Hfd2), (read_object _ _ _ _ Hlab2).
  repeat split.
Qed.

Lemma formFields_describes_the_field_witness :
  ∃ elt h' fields descriptor add,
    ListFieldView count_props scalar_store = (Ok elt, h')
    ∧ elementProp h' elt "formFields" = Ok fields
    ∧ elements_of h' fields = Some [descriptor]
    ∧ read h' descriptor "name" = Ok (VStr "count")
    ∧ read h' descriptor "isArrayField" = Ok (VBool true)
    ∧ read h' descriptor "validate" = Ok validators_required
    ∧ read h' descriptor "component" = Ok RemovableInput
    ∧ read h' descriptor "addArrayElement" = Ok add
    ∧ read h' add "label" = Ok VUndefined.
Proof.
  apply (formFields_describes_the_field count_props scalar_store); reflexivity.
Defined.

(** A prop named [formFields] passed by the caller wins: the rest props
    are spread after the component's own attributes, so the element gets
    the caller's value and the descriptor built for the field is dropped. *)
Theorem passed_formFields_replaces_descriptor
    (p : Props) (h : gmap loc obj) (mine : value) :
  nullish (initialValues p) = false →
  passThrough p !! "formFields" = Some mine →
  ∃ elt h',
    ListFieldView p h = (Ok elt, h')
    ∧ elementProp h' elt "formFields" = Ok mine.
Proof.
  intros Hn Hmine.
  destruct (ListFieldView_element p h Hn)
    as (f & h0 & d & e & h2 & _ & _ & Hrun & _ & Hprops).
  exists (VRef e), h2. split; [exact Hrun|].
  rewrite Hprops by not_reserved. erewrite lookup_union_Some_l; [reflexivity|].
  unfold restProps. rewrite lookup_insert_ne by done.
  by rewrite !lookup_delete_ne by done.
Qed.

Lemma passed_formFields_replaces_descriptor_witness :
  ∃ elt h',
    ListFieldView overriding_props Fixtures.absent_store = (Ok elt, h')
    ∧ elementProp h' elt "formFields" = Ok (VStr "mine").
Proof.
  apply (passed_formFields_replaces_descriptor
           overriding_props Fixtures.absent_store (VStr "mine"));
    reflexivity.
Defined.

(** What reaches [BaseFieldView] of the caller's props: [field] is
    forwarded, [addElementLabel] is not (it only labels the add action in
    the descriptor), and every prop the caller passes with a value other
    than [undefined] arrives as passed, unless its name is one the
    component takes out ([field], [addElementLabel], [initialValues]), one
    React reserves ([key], [ref], [__self], [__source]) or [__proto__]. *)
Theorem props_forwarded (p : Props) (h : gmap loc obj) :
  nullish (initialValues p) = false →
  ∃ elt h',
    ListFieldView p h = (Ok elt, h')
    ∧ elementProp h' elt "field" = Ok (VStr (field p))
    ∧ elementProp h' elt "addElementLabel" = Ok VUndefined
    ∧ ∀ k v, passThrough p !! k = Some v → v ≠ VUndefined →
             k ≠ "field" → k ≠ "addElementLabel" → k ≠ "initialValues" →
             k ∉ reserved_props → k ≠ "__proto__" →
             elementProp h' elt k = Ok v.
Proof.
  intros Hn.
  destruct (ListFieldView_element p h Hn)
    as (f & h0 & d & e & h2 & _ & _ & Hrun & _ & Hprops).
  exists (VRef e), h2. split; [exact Hrun|]. split; [|split].
  - rewrite Hprops by not_reserved. erewrite lookup_union_Some_l; [reflexivity|].
    unfold restProps. apply lookup_insert_eq.
  - rewrite Hprops by not_reserved. rewrite lookup_union_r.
    + rewrite !lookup_insert_ne by done. by rewrite lookup_empty.
    + unfold restProps. rewrite lookup_insert_ne by done.
      apply lookup_delete_eq.
  - intros k v Hpass _ Hk1 Hk2 Hk3 Hres _. rewrite (Hprops k Hres).
    erewrite lookup_union_Some_l; [reflexivity|].
    unfold restProps. rewrite lookup_insert_ne by done.
    by rewrite !lookup_delete_ne by done.
Qed.

Lemma props_forwarded_witness :
  ∃ elt h',
    ListFieldView overriding_props Fixtures.absent_store = (Ok elt, h')
    ∧ elementProp h' elt "field" = Ok (VStr "aliases")
    ∧ elementProp h' elt "addElementLabel" = Ok VUndefined
    ∧ elementProp h' elt "isEditable" = Ok (VBool true).
Proof.
  destruct (props_forwarded overriding_props Fixtures.absent_store eq_refl)
    as (elt & h' & Hrun & Hfield & Hlabel & Hpassed).
  exists elt, h'. repeat split; try done.
  apply Hpassed; try done. not_reserved.
Defined.

(** A non-empty string stored under the named field passes line 27 (it is
    truthy and has a non-zero [length]): the normalized value is that
    string itself, not a sequence holding it. *)
Theorem non_empty_string_kept_as_string
    (p : Props) (h : gmap loc obj) (l : loc) (m : gmap string value) (s : string) :
  initialValues p = VRef l → h !! l = Some (Obj m) →
  m !! field p = Some (VStr s) → s ≠ "" →
  ∃ elt h',
    ListFieldView p h = (Ok elt, h')
    ∧ normalizedValue p h' elt = Ok (VStr s)
    ∧ elements_of h' (VStr s) = None.
Proof.
  intros Hiv Hl Hm Hs.
  destruct (ListFieldView_run p h l m Hiv Hl)
    as (h0 & v & h1 & d & e & h2 & _ & Hd & _ & Hrun & _ & _ & _ & _ & _ & Hnv).
  rewrite Hm in Hd. cbn [default from_option id] in Hd.
  assert (Hk : kept h0 (VStr s) = true).
  { unfold kept, read. simpl. destruct s; [done|reflexivity]. }
  rewrite defaulted_run, Hk in Hd. injection Hd as <- <-.
  exists (VRef e), h2. by repeat split.
Qed.

Lemma non_empty_string_kept_as_string_witness :
  ∃ elt h',
    ListFieldView (Fixtures.props_with (VRef 1%positive)) scalar_store = (Ok elt, h')
    ∧ normalizedValue (Fixtures.props_with (VRef 1%positive)) h' elt = Ok (VStr "abc")
    ∧ elements_of h' (VStr "abc") = None.
Proof.
  apply (non_empty_string_kept_as_string
           (Fixtures.props_with (VRef 1%positive)) scalar_store 1%positive
           (<["aliases" := VStr "abc"]> (<["count" := VNum 3]> ∅)) "abc");
    [reflexivity | reflexivity | reflexivity | discriminate].
Defined.

(** A number, a boolean, [null] or the empty string stored under the
    named field is replaced by the one-element sequence ['']: such a value
    is falsy or has no [length]. *)
Theorem scalar_replaced_by_blank_entry
    (p : Props) (h : gmap loc obj) (l : loc) (m : gmap string value) (v0 : value) :
  initialValues p = VRef l → h !! l = Some (Obj m) →
  m !! field p = Some v0 →
  (v0 = VNull ∨ (∃ b, v0 = VBool b) ∨ (∃ n, v0 = VNum n) ∨ v0 = VStr "") →
  ∃ elt h' v,
    ListFieldView p h = (Ok elt, h')
    ∧ normalizedValue p h' elt = Ok v
    ∧ elements_of h' v = Some [VStr ""].
Proof.
  intros Hiv Hl Hm Hv0.
  destruct (ListFieldView_run p h l m Hiv Hl)
    as (h0 & v & h1 & d & e & h2 & _ & Hd & Hsub2 & Hrun & _ & _ & _ & _ & _ & Hnv).
  rewrite Hm in Hd. cbn [default from_option id] in Hd.
  assert (Hk : kept h0 v0 = false).
  { destruct Hv0 as [-> | [[b ->] | [[n ->] | ->]]]; try reflexivity.
    - unfold kept. simpl. apply andb_false_r.
    - unfold kept. simpl. apply andb_false_r. }
  rewrite defaulted_run, Hk in Hd. injection Hd as <- <-.
  exists (VRef e), h2, (VRef (fresh (dom h0))).
  split; [exact Hrun|]. split; [exact Hnv|].
  simpl. by rewrite (lookup_extends _ _ _ _ Hsub2 (lookup_insert_eq _ _ _)).
Qed.

Lemma scalar_replaced_by_blank_entry_witness :
  ∃ elt h' v,
    ListFieldView count_props scalar_store = (Ok elt, h')
    ∧ normalizedValue count_props h' elt = Ok v
    ∧ elements_of h' v = Some [VStr ""].
Proof.
  apply (scalar_replaced_by_blank_entry count_props scalar_store 1%positive
           (<["aliases" := VStr "abc"]> (<["count" := VNum 3]> ∅)) (VNum 3));
    [reflexivity | reflexivity | reflexivity |].
  right. right. left. by exists 3%Z.
Defined.

(** The blank entry is made anew on every call: when the named field is
    absent from the mapping and is not the name of a method inherited from
    [Object.prototype], the sequence [''] of one call is an array that was
    not in the store before the call, and a second call with the same
    props makes another one, so no two editors share their placeholder. *)
Theorem blank_entry_is_new_each_time
    (p : Props) (h : gmap loc obj) (l : loc) (m : gmap string value) :
  initialValues p = VRef l → h !! l = Some (Obj m) →
  m !! field p = None → Object_prototype !! field p = None →
  ∃ elt1 h1 v1 elt2 h2 v2,
    ListFieldView p h = (Ok elt1, h1)
    ∧ ListFieldView p h1 = (Ok elt2, h2)
    ∧ normalizedValue p h1 elt1 = Ok v1
    ∧ normalizedValue p h2 elt2 = Ok v2
    ∧ v1 ≠ v2
    ∧ elements_of h v1 = None
    ∧ elements_of h2 v1 = Some [VStr ""]
    ∧ elements_of h2 v2 = Some [VStr ""].
Proof.
  intros Hiv Hl Hm Hproto.
  destruct (ListFieldView_run p h l m Hiv Hl)
    as (h0 & v & h1 & d & e & h2 & Hsub0 & Hd & Hsub2 & Hrun & _ & _ & _ & _ & _ & Hnv).
  assert (Hl2 : h2 !! l = Some (Obj m)).
  { eapply lookup_extends; [exact Hsub2|].
    eapply lookup_extends; [exact (defaulted_extends _ _ _ _ Hd)|].
    by eapply lookup_extends. }
  destruct (ListFieldView_run p h2 l m Hiv Hl2)
    as (h0' & v' & h1' & d' & e' & h2' & Hsub0' & Hd' & Hsub2' & Hrun' & _ & _ & _ & _ & _ & Hnv').
  rewrite Hm in Hd, Hd'. cbn [default from_option id] in Hd, Hd'.
  rewrite defaulted_run in Hd, Hd'.
  rewrite (inherited_not_kept h0 _ Hproto) in Hd.
  rewrite (inherited_not_kept h0' _ Hproto) in Hd'.
  injection Hd as <- <-. injection Hd' as <- <-.
  set (a := fresh (dom h0)) in *. set (a' := fresh (dom h0')) in *.
  assert (Ha2 : h2 !! a = Some (Arr [VStr ""])).
  { eapply lookup_extends; [exact Hsub2|]. apply lookup_insert_eq. }
  assert (Ha0' : h0' !! a = Some (Arr [VStr ""])) by by eapply lookup_extends.
  exists (VRef e), h2, (VRef a), (VRef e'), h2', (VRef a').
  repeat split; try done.
  - intros [= Heq]. pose proof (fresh_lookup h0') as Hfresh.
    fold a' in Hfresh. rewrite <- Heq in Hfresh. congruence.
  - simpl. destruct (h !! a) as [o|] eqn:Hha; [|done].
    pose proof (lookup_extends _ _ _ _ Hsub0 Hha) as Hbad.
    pose proof (fresh_lookup h0) as Hfresh. fold a in Hfresh. congruence.
  - simpl. rewrite (lookup_extends h0' h2' a (Arr [VStr ""])); [done| |done].
    etrans; [apply alloc_extends|]. exact Hsub2'.
  - simpl. by rewrite (lookup_extends _ _ _ _ Hsub2' (lookup_insert_eq _ _ _)).
Qed.

Lemma blank_entry_is_new_each_time_witness :
  ∃ elt1 h1 v1 elt2 h2 v2,
    ListFieldView (Fixtures.props_with (VRef 1%positive)) Fixtures.absent_store
      = (Ok elt1, h1)
    ∧ ListFieldView (Fixtures.props_with (VRef 1%positive)) h1 = (Ok elt2, h2)
    ∧ normalizedValue (Fixtures.props_with (VRef 1%positive)) h1 elt1 = Ok v1
    ∧ normalizedValue (Fixtures.props_with (VRef 1%positive)) h2 elt2 = Ok v2
    ∧ v1 ≠ v2
    ∧ elements_of Fixtures.absent_store v1 = None
    ∧ elements_of h2 v1 = Some [VStr ""]
    ∧ elements_of h2 v2 = Some [VStr ""].
Proof.
  apply (blank_entry_is_new_each_time
           (Fixtures.props_with (VRef 1%positive)) Fixtures.absent_store
           1%positive ∅);
    reflexivity.
Defined.

(** Whatever the mapping holds under the named field (nothing, a
    sequence, a string, an object, ...), the normalized value passes the
    test of line 27 in the store the component leaves: it is truthy and
    its [length] is truthy. *)
Theorem normalized_value_has_truthy_length
    (p : Props) (h : gmap loc obj) (l : loc) (m : gmap string value) :
  initialValues p = VRef l → h !! l = Some (Obj m) →
  ∃ elt h' v n,
    ListFieldView p h = (Ok elt, h')
    ∧ normalizedValue p h' elt = Ok v
    ∧ truthy v = true
    ∧ read h' v "length" = Ok n
    ∧ truthy n = true.
Proof.
  intros Hiv Hl.
  destruct (ListFieldView_run p h l m Hiv Hl)
    as (h0 & v & h1 & d & e & h2 & _ & Hd & Hsub2 & Hrun & _ & _ & _ & _ & _ & Hnv).
  pose proof (defaulted_result_kept _ _ _ _ h2 Hd Hsub2) as Hk.
  unfold kept in Hk. apply andb_true_iff in Hk as [Hv Hn].
  destruct (read h2 v "length") as [n|] eqn:Hr; [|discriminate Hn].
  exists (VRef e), h2, v, n. by repeat split.
Qed.

Lemma normalized_value_has_truthy_length_witness :
  ∃ elt h' v n,
    ListFieldView count_props scalar_store = (Ok elt, h')
    ∧ normalizedValue count_props h' elt = Ok v
    ∧ truthy v = true
    ∧ read h' v "length" = Ok n
    ∧ truthy n = true.
Proof.
  apply (normalized_value_has_truthy_length count_props scalar_store 1%positive
           (<["aliases" := VStr "abc"]> (<["count" := VNum 3]> ∅)));
    reflexivity.
Defined.

End ListFieldEdges.

(** * Properties of the removable row input *)

Module RowFacts.
Import Row MoreFixtures StoreFacts.

(** One run of the row component: it never throws, and the element it
    returns shows the props built at line 10. *)
Lemma RemovableInput_run (allProps : gmap string value) (h : gmap loc obj) :
  ∃ icon elt h',
    RemovableInput allProps h = (Ok elt, h')
    ∧ h ⊆ h'
    ∧ read h' icon "type" = Ok Icon
    ∧ (∀ k, k ∉ ListField.reserved_props →
            elementProp h' icon k
            = Ok (default (inherited k)
                    ((<["name" := VStr "remove"]>
                      (<["link" := VBool true]>
                      (<["onClick" := default VUndefined (allProps !! "removeField")]>
                         ∅)) : gmap string value) !! k)))
    ∧ read h' elt "type" = Ok BaseSemanticInput
    ∧ ∀ k, k ∉ ListField.reserved_props →
           elementProp h' elt k
           = Ok (default (inherited k)
                   ((delete "removeField" allProps
                       ∪ <["icon" := icon]> (<["inputType" := VStr "Input"]> ∅)) !! k)).
Proof.
  destruct (ListFieldEdges.createElement_run Icon
              (<["name" := VStr "remove"]>
              (<["link" := VBool true]>
              (<["onClick" := default VUndefined (allProps !! "removeField")]> ∅))) h)
    as (i & h1 & Hi & Hsub1 & _ & Hicon).
  destruct (ListFieldEdges.createElement_run BaseSemanticInput
              (delete "removeField" allProps
                 ∪ <["icon" := VRef i]> (<["inputType" := VStr "Input"]> ∅)) h1)
    as (e & h2 & He & Hsub2 & _ & Helt).
  destruct (Hicon h2 Hsub2) as (Hitype & Hiprops & _).
  destruct (Helt h2 (reflexivity _)) as (Hetype & Heprops & _).
  exists (VRef i), (VRef e), h2. repeat split; try done.
  - unfold RemovableInput, bind. by rewrite Hi, He.
  - by etrans.
Qed.

(** The row renders a [BaseSemanticInput] whose icon, unless the caller
    passes an [icon] prop, is an [Icon] element named [remove], marked as
    a link, whose click handler is the [removeField] prop it was given
    ([undefined] when none was passed). It does not throw on any props. *)
Theorem remove_icon_calls_removeField (allProps : gmap string value) (h : gmap loc obj) :
  allProps !! "icon" = None →
  ∃ elt h' icon,
    RemovableInput allProps h = (Ok elt, h')
    ∧ read h' elt "type" = Ok BaseSemanticInput
    ∧ elementProp h' elt "icon" = Ok icon
    ∧ read h' icon "type" = Ok Icon
    ∧ elementProp h' icon "name" = Ok (VStr "remove")
    ∧ elementProp h' icon "link" = Ok (VBool true)
    ∧ elementProp h' icon "onClick"
      = Ok (default VUndefined (allProps !! "removeField")).
Proof.
  intros Hnone.
  destruct (RemovableInput_run allProps h)
    as (icon & elt & h' & Hrun & _ & Hitype & Hiprops & Hetype & Heprops).
  exists elt, h', icon.
  split; [exact Hrun|]. split; [exact Hetype|]. split.
  { rewrite Heprops by not_reserved. rewrite lookup_union_r.
    - by rewrite lookup_insert_eq.
    - by rewrite lookup_delete_ne. }
  split; [exact Hitype|]. rewrite !Hiprops by not_reserved.
  rewrite lookup_insert_eq. rewrite lookup_insert_ne by done.
  rewrite lookup_insert_eq. rewrite !lookup_insert_ne by done.
  by rewrite lookup_insert_eq.
Qed.

Lemma remove_icon_calls_removeField_witness :
  ∃ elt h' icon,
    RemovableInput row_props ∅ = (Ok elt, h')
    ∧ read h' elt "type" = Ok BaseSemanticInput
    ∧ elementProp h' elt "icon" = Ok icon
    ∧ read h' icon "type" = Ok Icon
    ∧ elementProp h' icon "name" = Ok (VStr "remove")
    ∧ elementProp h' icon "link" = Ok (VBool true)
    ∧ elementProp h' icon "onClick"
      = Ok (default VUndefined (row_props !! "removeField")).
Proof. apply (remove_icon_calls_removeField row_props ∅). reflexivity. Defined.

(** The input never receives [removeField]. Its [inputType] is ['Input']
    when the caller passes none, and every prop the caller passes with a
    value other than [undefined] arrives as passed, [icon] and [inputType]
    included, unless its name is [removeField], one React reserves ([key],
    [ref], [__self], [__source]) or [__proto__]. Nothing stored before is
    changed. *)
Theorem row_props_forwarded (allProps : gmap string value) (h : gmap loc obj) :
  ∃ elt h',
    RemovableInput allProps h = (Ok elt, h')
    ∧ h ⊆ h'
    ∧ elementProp h' elt "removeField" = Ok VUndefined
    ∧ (allProps !! "inputType" = None →
       elementProp h' elt "inputType" = Ok (VStr "Input"))
    ∧ ∀ k v, allProps !! k = Some v → v ≠ VUndefined →
             k ≠ "removeField" →
             k ∉ ListField.reserved_props → k ≠ "__proto__" →
             elementProp h' elt k = Ok v.
Proof.
  destruct (RemovableInput_run allProps h)
    as (icon & elt & h' & Hrun & Hsub & _ & _ & _ & Heprops).
  exists elt, h'. split; [exact Hrun|]. split; [exact Hsub|]. split; [|split].
  - rewrite Heprops by not_reserved.
    rewrite lookup_union_r by apply lookup_delete_eq.
    by rewrite !lookup_insert_ne by done.
  - intros Hnone. rewrite Heprops by not_reserved. rewrite lookup_union_r.
    + rewrite lookup_insert_ne by done. by rewrite lookup_insert_eq.
    + by rewrite lookup_delete_ne.
  - intros k v Hpass _ Hk Hres _. rewrite (Heprops k Hres).
    erewrite lookup_union_Some_l; [reflexivity|].
    by rewrite lookup_delete_ne.
Qed.

Lemma row_props_forwarded_witness :
  ∃ elt h',
    RemovableInput row_props ∅ = (Ok elt, h')
    ∧ elementProp h' elt "removeField" = Ok VUndefined
    ∧ elementProp h' elt "inputType" = Ok (VStr "Input")
    ∧ elementProp h' elt "value" = Ok (VStr "a").
Proof.
  destruct (row_props_forwarded row_props ∅)
    as (elt & h' & Hrun & _ & Hremove & Htype & Hpassed).
  exists elt, h'. repeat split; try done.
  - by apply Htype.
  - apply Hpassed; try done. not_reserved.
Defined.

(** An [icon] prop passed to the row wins over the remove icon, because
    the rest props are spread last: the input then shows the caller's
    icon and nothing in its props leads to [removeField]. *)
Theorem passed_icon_replaces_remove_icon
    (allProps : gmap string value) (h : gmap loc obj) (mine : value) :
  allProps !! "icon" = Some mine →
  ∃ elt h',
    RemovableInput allProps h = (Ok elt, h')
    ∧ elementProp h' elt "icon" = Ok mine
    ∧ elementProp h' elt "removeField" = Ok VUndefined.
Proof.
  intros Hmine.
  destruct (RemovableInput_run allProps h)
    as (icon & elt & h' & Hrun & _ & _ & _ & _ & Heprops).
  exists elt, h'. repeat split; try done.
  - rewrite Heprops by not_reserved. erewrite lookup_union_Some_l; [reflexivity|].
    by rewrite lookup_delete_ne.
  - rewrite Heprops by not_reserved.
    rewrite lookup_union_r by apply lookup_delete_eq.
    by rewrite !lookup_insert_ne by done.
Qed.

Lemma passed_icon_replaces_remove_icon_witness :
  ∃ elt h',
    RemovableInput row_props_with_icon ∅ = (Ok elt, h')
    ∧ elementProp h' elt "icon" = Ok (VStr "search")
    ∧ elementProp h' elt "removeField" = Ok VUndefined.
Proof.
  apply (passed_icon_replaces_remove_icon row_props_with_icon ∅ (VStr "search")).
  reflexivity.
Defined.

End RowFacts.

(** * Properties of the point callbacks *)

Module OutlierFacts.
Import Outliers MoreFixtures StoreFacts.

(** [(gene || {}).geneSymbol] never throws: a truthy [gene] is not [null]
    or [undefined], and otherwise the property is read from a new empty
    object. *)
Lemma symbol_of_gene_or_empty (gene : value) (h : gmap loc obj) :
  ∃ v h', (let! record := js_or gene (alloc (Obj ∅)) in
           get_prop record "geneSymbol") h = (Ok v, h')
          ∧ h ⊆ h'
          ∧ (truthy gene = true → h' = h ∧ read h gene "geneSymbol" = Ok v)
          ∧ (truthy gene = false → v = VUndefined).
Proof.
  unfold bind, js_or. destruct (truthy gene) eqn:Ht.
  - unfold ret, get_prop.
    destruct (read h gene "geneSymbol") as [v|[]] eqn:Hr.
    + exists v, h. repeat split; done.
    + apply SelectorEdges.read_throws_iff in Hr.
      destruct gene; simpl in *; discriminate.
  - unfold alloc, get_prop. cbv zeta.
    exists VUndefined, (<[fresh (dom h) := Obj ∅]> h).
    erewrite read_object by apply lookup_insert_eq.
    rewrite lookup_empty. repeat split; try done. apply alloc_extends.
Qed.

(** The label callback throws exactly when the point is significant and
    [genesById] is [null] or [undefined]. For a point that is not
    significant [genesById] is never read, and a gene that is not in
    [genesById] makes no error. *)
Theorem geneLabel_throws_exactly (genesById : value) (d : Datum) (h : gmap loc obj) :
  (geneLabel genesById d h).1 = Throw TypeError
  ↔ truthy (isSignificant d) = true ∧ nullish genesById = true.
Proof.
  unfold geneLabel. destruct (truthy (isSignificant d)) eqn:Hsig.
  - unfold bind at 1. unfold get_prop at 1.
    destruct (read h genesById (geneId d)) as [gene|[]] eqn:Hr.
    + destruct (symbol_of_gene_or_empty gene h) as (v & h' & -> & _).
      simpl. split; [done|]. intros [_ Hn].
      apply (SelectorEdges.read_throws_iff h genesById (geneId d)) in Hn.
      congruence.
    + simpl. split; [|done]. intros _. split; [done|].
      by apply (SelectorEdges.read_throws_iff h genesById (geneId d)).
  - simpl. split; [done|]. by intros [? _].
Qed.

(** Only red points are labelled: whenever the label callback returns
    something other than [null], the stroke callback gives ['red'] for the
    same row; a row drawn ['lightgrey'] has the label [null], whatever
    [genesById] is, and the store is not touched. *)
Theorem labelled_points_are_red (genesById : value) (d : Datum) (h : gmap loc obj) :
  (∀ v h', geneLabel genesById d h = (Ok v, h') → v ≠ VNull →
           stroke d = VStr "red")
  ∧ (stroke d = VStr "lightgrey" → geneLabel genesById d h = (Ok VNull, h)).
Proof.
  unfold geneLabel, stroke. destruct (truthy (isSignificant d)).
  - split; [done|]. discriminate.
  - split; [|done]. intros v h' [= <- <-]. done.
Qed.

Lemma labelled_points_are_red_witness :
  stroke known_row = VStr "red"
  ∧ geneLabel VUndefined quiet_row genes_store = (Ok VNull, genes_store).
Proof.
  destruct (labelled_points_are_red (VRef 1%positive) known_row genes_store)
    as [Hred _].
  destruct (labelled_points_are_red VUndefined quiet_row genes_store)
    as [_ Hgrey].
  split.
  - apply (Hred (VStr "ABC") genes_store); [reflexivity | discriminate].
  - apply Hgrey. reflexivity.
Defined.

(** For a significant point whose gene is recorded in [genesById], the
    label is the [geneSymbol] of that record ([undefined] if the record
    has none), and nothing is allocated. *)
Theorem known_gene_labelled_with_symbol
    (d : Datum) (h : gmap loc obj) (l r : loc) (genes record : gmap string value) :
  truthy (isSignificant d) = true →
  h !! l = Some (Obj genes) → genes !! geneId d = Some (VRef r) →
  h !! r = Some (Obj record) →
  geneLabel (VRef l) d h = (Ok (default VUndefined (record !! "geneSymbol")), h).
Proof.
  intros Hsig Hl Hgene Hr. unfold geneLabel. rewrite Hsig.
  unfold bind at 1. unfold get_prop at 1.
  rewrite (read_object _ _ _ _ Hl), Hgene. cbn [default from_option id].
  destruct (symbol_of_gene_or_empty (VRef r) h) as (v & h' & -> & _ & Hkeep & _).
  destruct (Hkeep eq_refl) as [-> Hv].
  rewrite (read_object _ _ _ _ Hr) in Hv. by injection Hv as <-.
Qed.

Lemma known_gene_labelled_with_symbol_witness :
  geneLabel (VRef 1%positive) known_row genes_store = (Ok (VStr "ABC"), genes_store).
Proof.
  exact (known_gene_labelled_with_symbol known_row genes_store 1%positive 2%positive
           (<["ENSG1" := VRef 2%positive]> ∅) (<["geneSymbol" := VStr "ABC"]> ∅)
           eq_refl eq_refl eq_refl eq_refl).
Defined.

(** For a significant point whose gene is not in [genesById], the label is
    [undefined], not an error: the missing record is replaced by [{}].
    Nothing stored before is changed. *)
Theorem unknown_gene_label_is_undefined
    (d : Datum) (h : gmap loc obj) (l : loc) (genes : gmap string value) :
  truthy (isSignificant d) = true →
  h !! l = Some (Obj genes) → genes !! geneId d = None →
  ∃ h', geneLabel (VRef l) d h = (Ok VUndefined, h') ∧ h ⊆ h'.
Proof.
  intros Hsig Hl Hgene. unfold geneLabel. rewrite Hsig.
  unfold bind at 1. unfold get_prop at 1.
  rewrite (read_object _ _ _ _ Hl), Hgene. cbn [default from_option id].
  destruct (symbol_of_gene_or_empty (inherited (geneId d)) h)
    as (v & h' & -> & Hsub & Hkeep & Hv).
  exists h'. split; [|exact Hsub]. do 2 f_equal.
  destruct (truthy (inherited (geneId d))) eqn:Ht; [|by apply Hv].
  destruct (Hkeep eq_refl) as [_ Hread].
  destruct (inherited_cases (geneId d)) as [Hi | [Hi | (name & arity & Hi)]];
    rewrite Hi in Hread; vm_compute in Hread; congruence.
Qed.

Lemma unknown_gene_label_is_undefined_witness :
  ∃ h', geneLabel (VRef 1%positive) unknown_row genes_store = (Ok VUndefined, h')
        ∧ genes_store ⊆ h'.
Proof.
  apply (unknown_gene_label_is_undefined unknown_row genes_store 1%positive
           (<["ENSG1" := VRef 2%positive]> ∅));
    reflexivity.
Defined.

End OutlierFacts.
